(** * The Express adapter of genezio-adapters: [createExpressRouter]

    A shallow embedding of [src/express/index.ts].  The handler built by
    [createExpressRouter] reads a parsed request body, resolves a dotted
    selector against a map of instances built once, invokes the selected
    method and writes a response through the [res] object.

    The embedding keeps the three kinds of effect the handler has apart:
    what is written on [res] (a trace of the calls made on it), what is
    invoked on the registered instances (a log, and the instances' own
    state [W]), and whether an exception leaves the handler. *)

From Stdlib Require Import Ascii String Floats ZArith.
From stdpp Require Import base gmap strings list.

Local Open Scope string_scope.

Set Warnings "-register-all".

(** ** JavaScript values

    [req.body] has type [any]: whatever the body parser in front of the
    handler left there; a method may return any value.  Numbers are
    IEEE 754 doubles, as in JavaScript.  Values are finite trees: an
    object that reaches itself through its properties is not among
    them. *)

Inductive jsval :=
  | JUndefined
  | JNull
  | JBool (b : bool)
  | JNum (x : float)
  | JBigInt (n : Z)
  | JStr (s : string)
  | JArr (xs : list jsval)
  | JObj (props : gmap string jsval).

(** [!v] is [negb (truthy v)]: the falsy values are [undefined], [null],
    [false], [+0], [-0], [NaN], [0n] and the empty string. *)
Definition truthy (v : jsval) : bool :=
  match v with
  | JUndefined | JNull => false
  | JBool b => b
  | JNum x => negb (PrimFloat.is_zero x || PrimFloat.is_nan x)
  | JBigInt n => negb (n =? 0)%Z
  | JStr s => negb (String.eqb s "")
  | JArr _ | JObj _ => true
  end.

(** The two values no property can be read from. *)
Definition nullish (v : jsval) : bool :=
  match v with
  | JUndefined | JNull => true
  | _ => false
  end.

(** [v === "lit"] for a string literal. *)
Definition strict_eq_str (v : jsval) (lit : string) : bool :=
  match v with
  | JStr s => String.eqb s lit
  | _ => false
  end.

(** The own property [k] of an object; nothing but an object has one. *)
Definition field (v : jsval) (k : string) : option jsval :=
  match v with
  | JObj props => props !! k
  | _ => None
  end.

(** [a || b] for operands without effects. *)
Definition or_else (a b : jsval) : jsval := if truthy a then a else b.

(** An object literal [{k1: v1, k2: v2, ...}]. *)
Definition obj (fields : list (string * jsval)) : jsval :=
  JObj (list_to_map fields).

(** Whether [JSON.stringify(v)] returns: it throws a [TypeError] on a
    [BigInt], wherever in [v] it is.  (It throws on an object that
    reaches itself as well.) *)
Fixpoint serialisable (v : jsval) : bool :=
  match v with
  | JBigInt _ => false
  | JArr xs => forallb serialisable xs
  | JObj props => map_fold (λ _ v' ok, serialisable v' && ok) true props
  | _ => true
  end.

(** [s.split(sep)] for a one-character separator: the pieces between the
    occurrences of [sep]; never empty, and [[""]] for the empty string. *)
Fixpoint split (sep : ascii) (s : string) : list string :=
  match s with
  | EmptyString => [EmptyString]
  | String c rest =>
      if Ascii.eqb c sep then EmptyString :: split sep rest
      else match split sep rest with
           | [] => [String c EmptyString]
           | piece :: pieces => String c piece :: pieces
           end
  end.

(** Whether [sep] occurs in [s]. *)
Fixpoint has_sep (sep : ascii) (s : string) : bool :=
  match s with
  | EmptyString => false
  | String c rest => Ascii.eqb c sep || has_sep sep rest
  end.

(** What iterating [v] yields: an array gives its elements, a string its
    characters; nothing else among [jsval] is iterable. *)
Definition elements_of (v : jsval) : option (list jsval) :=
  match v with
  | JArr xs => Some xs
  | JStr s => Some ((λ c, JStr (String c EmptyString)) <$> list_ascii_of_string s)
  | _ => None
  end.

(** What leaves a piece of code other than by returning. *)
Inductive exn :=
  | TypeError (msg : string)
  | Thrown (e : jsval).

Inductive result (A : Type) :=
  | Ok (a : A)
  | Raise (e : exn).
Arguments Ok {A} a.
Arguments Raise {A} e.

(** ** The response object

    The handler uses three operations of [res]; each call is recorded in
    the order it is made.  [status] and [setHeader] always return:
    Express 4 stores whatever [status] is given.  [json] serialises its
    payload before it touches the response, and throws when that
    fails. *)
Inductive res_op :=
  | Status (code : jsval)
  | SetHeader (name value : string)
  | Json (payload : jsval).

(** The response a client sees: the status in force when [json] first
    returns (200 until [status] is called) and the payload given to it.
    A call of [json] that throws sends nothing. *)
Fixpoint sent_from (code : jsval) (ops : list res_op) : option (jsval * jsval) :=
  match ops with
  | [] => None
  | Status c :: ops' => sent_from c ops'
  | SetHeader _ _ :: ops' => sent_from code ops'
  | Json payload :: ops' =>
      if serialisable payload then Some (code, payload) else sent_from code ops'
  end.

Definition sent (ops : list res_op) : option (jsval * jsval) :=
  sent_from (JNum 200) ops.

(** One invocation of a method of a registered instance. *)
Record call := Call {
  call_class : string;
  call_method : string;
  call_args : list jsval
}.

(** How [await f(...)] ends for a method [f] that ends at all: [f] returns
    a plain value or throws, or returns a promise that is fulfilled or
    rejected. *)
Inductive outcome :=
  | Returns (v : jsval)
  | Throws (e : jsval)
  | Resolves (v : jsval)
  | Rejects (e : jsval).

(** The value [await] gives, or the error it throws. *)
Definition awaited (o : outcome) : jsval + jsval :=
  match o with
  | Returns v | Resolves v => inl v
  | Throws e | Rejects e => inr e
  end.

(** The positional arguments of a request: [...(req.body.params || [])],
    where that can be iterated. *)
Definition arguments (body : jsval) : option (list jsval) :=
  elements_of (or_else (default JUndefined (field body "params")) (JArr [])).

Section Router.

(** The state of the registered instances, which their methods may read
    and change. *)
Context {W : Type}.

(** What [instance[name]] can be: a data property or a function.  A
    function gets the positional arguments and the instances' state. *)
Inductive member :=
  | Data (v : jsval)
  | Method (f : list jsval → W → outcome * W).

Definition member_truthy (m : option member) : bool :=
  match m with
  | None => false
  | Some (Data v) => truthy v
  | Some (Method _) => true
  end.

(** A class constructor [c]: [c.name] and the properties that can be read
    from [new c()], own or inherited. *)
Record AnyClass := {
  name : string;
  new : gmap string member
}.

(** ** The handler's effects *)

Record state := State {
  written : list res_op;
  invoked : list call;
  world : W
}.

Definition M (A : Type) : Type := state → result A * state.

#[export] Instance M_ret : MRet M := λ A a st, (Ok a, st).

#[export] Instance M_bind : MBind M := λ A B k m st,
  match m st with
  | (Ok a, st') => k a st'
  | (Raise e, st') => (Raise e, st')
  end.

Definition throw {A : Type} (e : exn) : M A := λ st, (Raise e, st).

(** [try { body } catch (error) { handler }]: what [body] did before it
    threw stays done. *)
Definition try_catch {A : Type} (body : M A) (handler : exn → M A) : M A :=
  λ st,
    match body st with
    | (Ok a, st') => (Ok a, st')
    | (Raise e, st') => handler e st'
    end.

Definition res_do (op : res_op) : M unit := λ st,
  (Ok (), State (written st ++ [op]) (invoked st) (world st)).

Definition res_status (code : jsval) : M unit := res_do (Status code).
Definition res_setHeader (k v : string) : M unit := res_do (SetHeader k v).

(** [res.json(payload)]: [JSON.stringify] runs first; when it throws, the
    call leaves the response as it was. *)
Definition res_json (payload : jsval) : M unit := λ st,
  if serialisable payload then res_do (Json payload) st
  else (Raise (TypeError "Do not know how to serialize a BigInt"),
        (res_do (Json payload) st).2).

(** [v[k]] and [v.k], for the keys the handler reads ([jsonrpc], [method],
    [params], [statusCode]), which no built-in prototype defines: reading
    from [undefined] or [null] throws, a primitive or an array has no such
    property. *)
Definition get (v : jsval) (k : string) : M jsval :=
  if nullish v then
    throw (TypeError ("Cannot read properties of " +:+
                      (match v with JNull => "null" | _ => "undefined" end) +:+
                      " (reading '" +:+ k +:+ "')"))
  else mret (default JUndefined (field v k)).

(** [v.split('.')]: only a string has a [split] to call. *)
Definition call_split (v : jsval) : M (list string) :=
  match v with
  | JStr s => mret (split "." s)
  | _ => throw (TypeError "split is not a function")
  end.

(** [...v] in an argument list, for an iterable [v]. *)
Definition spread (v : jsval) : M (list jsval) :=
  match elements_of v with
  | Some xs => mret xs
  | None => throw (TypeError "not iterable")
  end.

(** [await m(...args)] for [m = instance[method]]; the invocation is
    logged under the class and method names. *)
Definition await_call (className method : string) (m : option member)
    (args : list jsval) : M jsval :=
  match m with
  | Some (Method f) => λ st,
      let '(o, w) := f args (world st) in
      let st' := State (written st) (invoked st ++ [Call className method args]) w in
      match awaited o with
      | inl v => (Ok v, st')
      | inr e => (Raise (Thrown e), st')
      end
  | _ => throw (TypeError "not a function")
  end.

(** ** [createExpressRouter] *)

(** [instances]: one instance per class under [c.name], a later class
    replacing an earlier one of the same name. *)
Definition build_instances (classes : list AnyClass) : gmap string (gmap string member) :=
  foldl (λ instances c, <[name c := new c]> instances) ∅ classes.

(** Lines 58-97: the lookup of the instance and of its method, the
    invocation and the response, for the two names taken from the
    selector. *)
Definition dispatch (instances : gmap string (gmap string member)) (body : jsval)
    (className method : string) : M unit :=
  match instances !! className with
  | None =>
      res_status (JNum 404);;
      res_json (obj [("error", JStr ("Class " +:+ className +:+ " not found."))])
  | Some instance =>
      if negb (member_truthy (instance !! method)) then
        res_status (JNum 404);;
        res_json (obj [("error", JStr ("Method " +:+ method +:+ " not found"))])
      else
        try_catch
          (params ← get body "params";
           args ← spread (or_else params (JArr []));
           response ← await_call className method (instance !! method) args;
           statusCode ← get response "statusCode";
           (if negb (truthy statusCode) then res_status (JNum 200)
            else res_status statusCode);;
           res_setHeader "Content-Type" "application/json";;
           res_status (JNum 200);;
           res_json (obj [("jsonrpc", JStr "2.0");
                          ("result", response);
                          ("id", JNull)]))
          (λ error,
             res_status (JNum 500);;
             res_json (obj [("error", JStr "Internal server error")]))
  end.

Definition createExpressRouter (classes : list AnyClass) (body : jsval) : M unit :=
  let instances := build_instances classes in
  eligible ←
    (if negb (truthy body) then mret true
     else if truthy body then
       jsonrpc ← get body "jsonrpc"; mret (strict_eq_str jsonrpc "2.0")
     else mret false);
  if eligible : bool then
    method_field ← get body "method";
    if negb (truthy method_field) then
      res_status (JNum 400);;
      res_json (obj [("error",
        JStr "Request invalid. Missing 'method' property from body.")])
    else
      methodComponents ← call_split method_field;
      if (length methodComponents <? 2)%nat then
        res_status (JNum 400);;
        res_json (obj [("error",
          JStr "Request invalid. Incorrect 'method' property format. It should be <classname.methodname>.")])
      else
        let className := default "" (head methodComponents) in
        let method := default "" (last methodComponents) in
        dispatch instances body className method
  else mret ().

(** One request handled from a fresh response object.  The handler is
    [async]: [Raise e] is the rejection of the promise it returns, an
    exception that leaves the handler with no one to answer the
    request. *)
Definition handle (classes : list AnyClass) (body : jsval) (w : W) : result unit * state :=
  createExpressRouter classes body (State [] [] w).

End Router.

Arguments member : clear implicits.
Arguments AnyClass : clear implicits.
Arguments state : clear implicits.
Arguments M : clear implicits.

(** ** Two services

    Classes of the kind the adapter is given.  Their shared state is the
    list of items in the cart. *)
Module Examples.

(** [sayHello(name) { return "Hello, " + name }], for a string [name]. *)
Definition sayHello (args : list jsval) (items : list jsval) : outcome * list jsval :=
  match args with
  | JStr name :: _ => (Returns (JStr ("Hello, " +:+ name)), items)
  | _ => (Returns (JStr "Hello, undefined"), items)
  end.

Definition HelloWorldService : AnyClass (list jsval) := {|
  name := "HelloWorldService";
  new := list_to_map [("sayHello", Method sayHello); ("greeting", Data (JStr "Hello, "))]
|}.

(** [add(item) { this.items.push(item) }]: returns nothing. *)
Definition add (args : list jsval) (items : list jsval) : outcome * list jsval :=
  (Returns JUndefined, (items ++ [default JUndefined (head args)])%list).

(** [list() { return this.items }]. *)
Definition list_items (args : list jsval) (items : list jsval) : outcome * list jsval :=
  (Returns (JArr items), items).

(** [remove(item)]: throws on an empty cart. *)
Definition remove (args : list jsval) (items : list jsval) : outcome * list jsval :=
  match items with
  | [] => (Throws (JStr "cart is empty"), items)
  | _ :: rest => (Returns (JBool true), rest)
  end.

(** [async checkout()]: the payment is declined. *)
Definition checkout (args : list jsval) (items : list jsval) : outcome * list jsval :=
  (Rejects (JStr "payment declined"), items).

Definition ShoppingCartService : AnyClass (list jsval) := {|
  name := "ShoppingCartService";
  new := list_to_map [("add", Method add); ("list", Method list_items);
                      ("remove", Method remove); ("checkout", Method checkout)]
|}.

Definition services : list (AnyClass (list jsval)) :=
  [HelloWorldService; ShoppingCartService].

(** A JSON-RPC 2.0 request body. *)
Definition request (selector : string) (params : list jsval) : jsval :=
  obj [("jsonrpc", JStr "2.0"); ("method", JStr selector); ("params", JArr params)].

End Examples.

(** ** A catalogue service

    A class with a method whose result carries a [statusCode], and with
    properties that are not functions; and an older class of the same
    name. *)
Module Catalogue.

Import Examples.

(** [find(id) { return { statusCode: 404, message: "no such product" } }]. *)
Definition find (args : list jsval) (items : list jsval) : outcome * list jsval :=
  (Returns (obj [("statusCode", JNum 404); ("message", JStr "no such product")]),
   items).

(** [stock() { return 12n }]: a [BigInt]. *)
Definition stock (args : list jsval) (items : list jsval) : outcome * list jsval :=
  (Returns (JBigInt 12), items).

(** [count() { return 0 }], in the older class. *)
Definition count (args : list jsval) (items : list jsval) : outcome * list jsval :=
  (Returns (JNum 0), items).

Definition ProductService : AnyClass (list jsval) := {|
  name := "ProductService";
  new := list_to_map [("find", Method find);
                      ("stock", Method stock);
                      ("version", Data (JStr "1.2.0"));
                      ("discount", Data (JNum 0))]
|}.

Definition LegacyProductService : AnyClass (list jsval) := {|
  name := "ProductService";
  new := list_to_map [("count", Method count)]
|}.

Definition catalogue : list (AnyClass (list jsval)) :=
  [LegacyProductService; HelloWorldService; ProductService].

End Catalogue.

(** * Properties *)

(** ** Splitting a selector *)

Example split_selector : split "." "A.b.c" = ["A"; "b"; "c"].
Proof. reflexivity. Qed.

Example split_empty : split "." "" = [""].
Proof. reflexivity. Qed.

Example split_trailing_dot : split "." "A." = ["A"; ""].
Proof. reflexivity. Qed.

Lemma split_nonempty sep s : split sep s ≠ [].
Proof.
  destruct s as [|c rest]; simpl; [done|].
  destruct (Ascii.eqb c sep); [done|].
  by destruct (split sep rest).
Qed.

Lemma split_length_pos sep s : (1 ≤ length (split sep s))%nat.
Proof.
  pose proof (split_nonempty sep s) as Hne.
  destruct (split sep s); [done | simpl; lia].
Qed.

(** A string without the separator is its own single piece. *)
Lemma split_no_sep sep s : has_sep sep s = false → split sep s = [s].
Proof.
  induction s as [|c rest IH]; simpl; [done|].
  destruct (Ascii.eqb c sep); simpl; [done|].
  intros Hrest. by rewrite (IH Hrest).
Qed.

(** A piece ends at the first separator. *)
Lemma split_app sep a b :
  has_sep sep a = false →
  split sep (a +:+ String sep b) = a :: split sep b.
Proof.
  induction a as [|c rest IH]; simpl.
  - intros _. by rewrite Ascii.eqb_refl.
  - destruct (Ascii.eqb c sep); simpl; [done|].
    intros Hrest. by rewrite (IH Hrest).
Qed.

(** No piece contains the separator. *)
Lemma split_pieces_no_sep sep s :
  Forall (λ piece, has_sep sep piece = false) (split sep s).
Proof.
  induction s as [|c rest IH]; simpl.
  - by repeat constructor.
  - destruct (Ascii.eqb c sep) eqn:Hc.
    + by constructor.
    + destruct (split sep rest) as [|piece pieces]; simpl.
      * repeat constructor. simpl. by rewrite Hc.
      * inversion IH as [|? ? Hp Hps]; subst.
        constructor; [|done]. simpl. by rewrite Hc.
Qed.

(** Two pieces or more only come from a string that has a separator, so
    not from the empty string. *)
Lemma split_two_has_sep sep s :
  (2 ≤ length (split sep s))%nat → has_sep sep s = true.
Proof.
  intros Hlen. destruct (has_sep sep s) eqn:Hs; [done|].
  rewrite (split_no_sep _ _ Hs) in Hlen. simpl in Hlen. lia.
Qed.

Lemma has_sep_nonempty sep s : has_sep sep s = true → String.eqb s "" = false.
Proof. by destruct s. Qed.

(** ** What can be serialised *)

Lemma serialisable_envelope r :
  serialisable (obj [("jsonrpc", JStr "2.0"); ("result", r); ("id", JNull)]) =
  serialisable r.
Proof.
  vm_compute.
  match goal with |- context [if ?b then _ else _] => destruct b end; reflexivity.
Qed.

Lemma serialisable_error (msg : string) :
  serialisable (obj [("error", JStr msg)]) = true.
Proof. reflexivity. Qed.

Section Facts.

Context {W : Type}.

Implicit Types (classes : list (AnyClass W)) (c : AnyClass W).
Implicit Types (body v : jsval) (st : state W) (w : W).
Implicit Types (instance : gmap string (member W)).

(** ** The map of instances *)

Lemma build_instances_snoc classes c :
  build_instances (classes ++ [c]) = <[name c := new c]> (build_instances classes).
Proof. unfold build_instances. by rewrite foldl_app. Qed.

(** X15. A name is absent from the map exactly when no class has it. *)
Lemma build_instances_None classes (A : string) :
  build_instances classes !! A = None ↔ A ∉ name <$> classes.
Proof.
  induction classes as [|c classes IH] using rev_ind.
  - split; [intros _; apply not_elem_of_nil | done].
  - rewrite build_instances_snoc, fmap_app, lookup_insert_None. simpl.
    rewrite not_elem_of_app, IH, list_elem_of_singleton.
    split; intros [Hin Hne]; (split; [exact Hin | congruence]).
Qed.

(** X16. A registered name maps to the instance of the last class of that
    name. *)
Lemma build_instances_last classes (A : string) :
  build_instances classes !! A =
  new <$> last (filter (λ c, name c = A) classes).
Proof.
  induction classes as [|c classes IH] using rev_ind; [done|].
  rewrite build_instances_snoc, filter_app, filter_cons, filter_nil.
  destruct (decide (name c = A)) as [->|Hne].
  - by rewrite lookup_insert_eq, last_snoc.
  - by rewrite lookup_insert_ne, app_nil_r.
Qed.

Lemma build_instances_nil : build_instances (W:=W) [] = ∅.
Proof. done. Qed.

(** ** Running the handler *)

Lemma get_defined body k :
  nullish body = false →
  get (W:=W) body k = mret (default JUndefined (field body k)).
Proof. intros Hn. unfold get. by rewrite Hn. Qed.

Lemma truthy_defined body : truthy body = true → nullish body = false.
Proof. by destruct body. Qed.

Lemma field_defined body k v : field body k = Some v → truthy body = true.
Proof. by destruct body. Qed.

(** A request that is not eligible: nothing happens. *)
Lemma handler_not_eligible classes body st :
  truthy body = true →
  strict_eq_str (default JUndefined (field body "jsonrpc")) "2.0" = false →
  createExpressRouter classes body st = (Ok (), st).
Proof.
  intros Ht Hj. pose proof (truthy_defined _ Ht) as Hn.
  unfold createExpressRouter. rewrite Ht, !(get_defined _ _ Hn).
  unfold mbind, M_bind, mret, M_ret. simpl. by rewrite Hj.
Qed.

(** An eligible request with a non-empty string as [method]: the selector
    is split and, with two pieces or more, dispatched on its first and
    last piece. *)
Lemma handler_selector classes body s st :
  field body "jsonrpc" = Some (JStr "2.0") →
  field body "method" = Some (JStr s) →
  String.eqb s "" = false →
  createExpressRouter classes body st =
  if (length (split "." s) <? 2)%nat then
    (res_status (JNum 400);;
     res_json (obj [("error",
       JStr "Request invalid. Incorrect 'method' property format. It should be <classname.methodname>.")])) st
  else
    dispatch (build_instances classes) body
      (default "" (head (split "." s))) (default "" (last (split "." s))) st.
Proof.
  intros Hj Hm Hs.
  pose proof (field_defined _ _ _ Hj) as Ht.
  pose proof (truthy_defined _ Ht) as Hn.
  unfold createExpressRouter. rewrite Ht, !(get_defined _ _ Hn), Hj, Hm.
  unfold mbind, M_bind, mret, M_ret. simpl. rewrite Hs. simpl.
  by destruct (length (split "." s) <? 2)%nat.
Qed.

(** An eligible request whose body can be read and whose [method] is
    falsy. *)
Lemma handler_missing_method classes body st :
  nullish body = false →
  (truthy body = true → field body "jsonrpc" = Some (JStr "2.0")) →
  truthy (default JUndefined (field body "method")) = false →
  createExpressRouter classes body st =
  (Ok (), State
     (written st ++ [Status (JNum 400)] ++
       [Json (obj [("error",
          JStr "Request invalid. Missing 'method' property from body.")])])
     (invoked st) (world st)).
Proof.
  intros Hn He Hm.
  unfold createExpressRouter. rewrite !(get_defined _ _ Hn).
  destruct (truthy body) eqn:Ht; [rewrite (He eq_refl)|];
    unfold mbind, M_bind, mret, M_ret, res_status, res_json, res_do; simpl;
    rewrite Hm; simpl; by rewrite <- app_assoc.
Qed.

Lemma missing_method_body classes body w :
  nullish body = false →
  (truthy body = true → field body "jsonrpc" = Some (JStr "2.0")) →
  field body "method" = None →
  handle classes body w =
  (Ok (), State
     [Status (JNum 400);
      Json (obj [("error",
        JStr "Request invalid. Missing 'method' property from body.")])]
     [] w).
Proof.
  intros Hn He Hm. unfold handle.
  rewrite handler_missing_method; [done..|]. by rewrite Hm.
Qed.

(** A body that is [undefined] or [null] is eligible, and reading its
    [method] throws before anything is written. *)
Lemma handler_nullish_body classes body st :
  nullish body = true →
  ∃ msg, createExpressRouter classes body st = (Raise (TypeError msg), st).
Proof. destruct body; try done; intros _; eexists; reflexivity. Qed.

(** ** Dispatching on a class and a method name *)

Lemma dispatch_no_class (instances : gmap string (gmap string (member W)))
    body (className method : string) st :
  instances !! className = None →
  dispatch instances body className method st =
  (Ok (), State
     (written st ++ [Status (JNum 404)] ++
       [Json (obj [("error", JStr ("Class " +:+ className +:+ " not found."))])])
     (invoked st) (world st)).
Proof.
  intros Hc. unfold dispatch. rewrite Hc.
  unfold mbind, M_bind, res_status, res_json, res_do. simpl.
  by rewrite <- app_assoc.
Qed.

Lemma dispatch_no_method (instances : gmap string (gmap string (member W)))
    instance body (className method : string) st :
  instances !! className = Some instance →
  member_truthy (instance !! method) = false →
  dispatch instances body className method st =
  (Ok (), State
     (written st ++ [Status (JNum 404)] ++
       [Json (obj [("error", JStr ("Method " +:+ method +:+ " not found"))])])
     (invoked st) (world st)).
Proof.
  intros Hc Hm. unfold dispatch. rewrite Hc, Hm.
  unfold mbind, M_bind, res_status, res_json, res_do. simpl.
  by rewrite <- app_assoc.
Qed.

(** The method is called with the request's arguments; what follows
    depends on how the call ends and on the value it gives. *)
Lemma dispatch_invoke (instances : gmap string (gmap string (member W)))
    instance body (className method : string) f args o w st :
  nullish body = false →
  instances !! className = Some instance →
  instance !! method = Some (Method f) →
  arguments body = Some args →
  f args (world st) = (o, w) →
  dispatch instances body className method st =
  (Ok (), State
     (written st ++
        match awaited o with
        | inl response =>
            if nullish response then
              [Status (JNum 500);
               Json (obj [("error", JStr "Internal server error")])]
            else
              [Status (or_else (default JUndefined (field response "statusCode")) (JNum 200));
               SetHeader "Content-Type" "application/json";
               Status (JNum 200);
               Json (obj [("jsonrpc", JStr "2.0"); ("result", response); ("id", JNull)])] ++
              (if serialisable response then []
               else [Status (JNum 500);
                     Json (obj [("error", JStr "Internal server error")])])
        | inr _ =>
            [Status (JNum 500);
             Json (obj [("error", JStr "Internal server error")])]
        end)
     (invoked st ++ [Call className method args]) w).
Proof.
  intros Hn Hc Hm Ha Hf. unfold arguments in Ha.
  unfold dispatch. rewrite Hc, Hm, (get_defined _ _ Hn). simpl.
  unfold try_catch, spread, await_call, mbind, M_bind, mret, M_ret. simpl.
  rewrite Ha. simpl. rewrite Hf.
  destruct (awaited o) as [response|e]; simpl.
  - unfold get. destruct (nullish response) eqn:Hr; simpl.
    + unfold res_status, res_json, res_do. simpl. by rewrite <- app_assoc.
    + unfold or_else.
      destruct (truthy (default JUndefined (field response "statusCode")));
        unfold res_status, res_setHeader, res_json, res_do;
        rewrite serialisable_envelope;
        destruct (serialisable response); simpl;
        by rewrite <- ?app_assoc.
  - unfold res_status, res_json, res_do. simpl. by rewrite <- app_assoc.
Qed.

(** [dispatch] reads the body only for its [params]. *)
Lemma dispatch_body (instances : gmap string (gmap string (member W)))
    body body' (className method : string) :
  nullish body = false → nullish body' = false →
  field body "params" = field body' "params" →
  dispatch instances body className method =
  dispatch instances body' className method.
Proof.
  intros Hn Hn' Hp. unfold dispatch.
  by rewrite (get_defined _ _ Hn), (get_defined _ _ Hn'), Hp.
Qed.

(** The first and the last of two pieces or more. *)
Lemma head_last_pieces (A c : string) (mid : list string) :
  (length (A :: mid ++ [c]) <? 2)%nat = false ∧
  default "" (head (A :: mid ++ [c])) = A ∧
  default "" (last (A :: mid ++ [c])) = c.
Proof.
  repeat split.
  - apply Nat.ltb_ge. rewrite length_cons, length_app. simpl. lia.
  - by rewrite last_cons, last_snoc.
Qed.

(** An eligible request whose selector has two pieces or more is
    dispatched on the first and the last of them. *)
Lemma handler_dispatch classes body s (A c : string) (mid : list string) st :
  field body "jsonrpc" = Some (JStr "2.0") →
  field body "method" = Some (JStr s) →
  split "." s = A :: mid ++ [c] →
  createExpressRouter classes body st =
  dispatch (build_instances classes) body A c st.
Proof.
  intros Hj Hm Hs.
  destruct (head_last_pieces A c mid) as (Hlen & Hhead & Hlast).
  assert (String.eqb s "" = false) as Hne.
  { apply (has_sep_nonempty "."), split_two_has_sep.
    rewrite Hs. by apply Nat.ltb_ge. }
  rewrite (handler_selector _ _ _ _ Hj Hm Hne), Hs, Hlen.
  by rewrite Hhead, Hlast.
Qed.

(** ** The handler, request by request *)

(** C3. A request whose body is truthy and whose [jsonrpc] is not the
    string "2.0" is ignored: the handler returns without setting a
    status, setting a header or sending a body, and without invoking
    anything. *)
Theorem ineligible_request_ignored classes body w :
  truthy body = true →
  strict_eq_str (default JUndefined (field body "jsonrpc")) "2.0" = false →
  handle classes body w = (Ok (), State [] [] w).
Proof.
  intros Ht Hj. unfold handle. by rewrite handler_not_eligible.
Qed.

(** C2, amended. An eligible request whose body is neither [undefined]
    nor [null] and has no [method] field is answered with status 400 and
    the missing-method message. *)
Theorem missing_method_400 classes body w :
  nullish body = false →
  (truthy body = true → field body "jsonrpc" = Some (JStr "2.0")) →
  field body "method" = None →
  handle classes body w =
  (Ok (), State
     [Status (JNum 400);
      Json (obj [("error",
        JStr "Request invalid. Missing 'method' property from body.")])]
     [] w).
Proof.
  intros Hn He Hm. by apply missing_method_body.
Qed.

(** C4, amended. A body that is [undefined] or [null] passes the
    eligibility check; reading its [method] raises a [TypeError] that
    leaves the handler before anything is written.  The other falsy
    bodies ([false], [0], [NaN], the empty string) can be read: they get
    the 400 answer for a missing [method]. *)
Theorem absent_body_TypeError classes body w :
  truthy body = false →
  (nullish body = true →
     ∃ msg, handle classes body w = (Raise (TypeError msg), State [] [] w)) ∧
  (nullish body = false →
     handle classes body w =
     (Ok (), State
        [Status (JNum 400);
         Json (obj [("error",
           JStr "Request invalid. Missing 'method' property from body.")])]
        [] w)).
Proof.
  intros Ht. split; intros Hn.
  - by apply handler_nullish_body.
  - apply missing_method_body; [done| |by destruct body].
    intros Ht'. congruence.
Qed.

(** C10, amended. An eligible request whose [method] is a non-empty
    string that splits into fewer than two pieces is answered with
    status 400 and the format message; nothing is looked up or
    invoked. *)
Theorem selector_without_dot_400 classes body s w :
  field body "jsonrpc" = Some (JStr "2.0") →
  field body "method" = Some (JStr s) →
  s ≠ "" →
  (length (split "." s) < 2)%nat →
  handle classes body w =
  (Ok (), State
     [Status (JNum 400);
      Json (obj [("error",
        JStr "Request invalid. Incorrect 'method' property format. It should be <classname.methodname>.")])]
     [] w).
Proof.
  intros Hj Hm Hne Hlen. unfold handle.
  apply String.eqb_neq in Hne. apply Nat.ltb_lt in Hlen.
  by rewrite (handler_selector _ _ _ _ Hj Hm Hne), Hlen.
Qed.

(** C6. A selector with two dots or more is resolved to its first piece
    as class name and its last piece as method name, whatever stands
    between them.  The lookup and the invocation use these two names: an
    unregistered first piece is answered "Class <first> not found.", a
    last piece that is no truthy property of the instance registered
    under the first is answered "Method <last> not found", and otherwise
    the function found under the last piece, on the instance registered
    under the first, is the one invoked, and its outcome is the one
    answered.  The request is handled exactly as the one whose selector
    is the two names joined by one dot. *)
Theorem selector_first_and_last classes (props : gmap string jsval) s
    (A c : string) (mid : list string) w :
  props !! "jsonrpc" = Some (JStr "2.0") →
  props !! "method" = Some (JStr s) →
  split "." s = A :: mid ++ [c] →
  (build_instances classes !! A = None →
   handle classes (JObj props) w =
   (Ok (), State
      [Status (JNum 404);
       Json (obj [("error", JStr ("Class " +:+ A +:+ " not found."))])]
      [] w)) ∧
  (∀ instance,
     build_instances classes !! A = Some instance →
     member_truthy (instance !! c) = false →
     handle classes (JObj props) w =
     (Ok (), State
        [Status (JNum 404);
         Json (obj [("error", JStr ("Method " +:+ c +:+ " not found"))])]
        [] w)) ∧
  (∀ instance f args o w',
     build_instances classes !! A = Some instance →
     instance !! c = Some (Method f) →
     arguments (JObj props) = Some args →
     f args w = (o, w') →
     handle classes (JObj props) w =
     (Ok (), State
        match awaited o with
        | inl response =>
            if nullish response then
              [Status (JNum 500);
               Json (obj [("error", JStr "Internal server error")])]
            else
              [Status (or_else (default JUndefined (field response "statusCode")) (JNum 200));
               SetHeader "Content-Type" "application/json";
               Status (JNum 200);
               Json (obj [("jsonrpc", JStr "2.0"); ("result", response); ("id", JNull)])] ++
              (if serialisable response then []
               else [Status (JNum 500);
                     Json (obj [("error", JStr "Internal server error")])])
        | inr _ =>
            [Status (JNum 500);
             Json (obj [("error", JStr "Internal server error")])]
        end
        [Call A c args] w')) ∧
  handle classes (JObj props) w =
    handle classes (JObj (<["method" := JStr (A +:+ "." +:+ c)]> props)) w.
Proof.
  intros Hj Hm Hs. unfold handle.
  rewrite (handler_dispatch classes (JObj props) s A c mid); [|done..].
  split; [|split; [|split]].
  - intros HA. by apply dispatch_no_class.
  - intros instance HA Hc. by apply (dispatch_no_method _ instance).
  - intros instance f args o w' HA Hf Ha Hcall.
    exact (dispatch_invoke _ instance (JObj props) A c f args o w'
             (State [] [] w) eq_refl HA Hf Ha Hcall).
  - pose proof (split_pieces_no_sep "." s) as Hpieces. rewrite Hs in Hpieces.
    apply Forall_cons in Hpieces as [HA Hrest].
    apply Forall_app in Hrest as [_ Hc]. rewrite Forall_singleton in Hc.
    rewrite (handler_dispatch classes _ (A +:+ "." +:+ c) A c []).
    + apply (f_equal (λ k, k (State [] [] w))), dispatch_body; [done..|].
      simpl. by rewrite lookup_insert_ne.
    + simpl. by rewrite lookup_insert_ne.
    + simpl. by rewrite lookup_insert_eq.
    + change (A +:+ "." +:+ c) with (A +:+ String "." c).
      by rewrite (split_app _ _ _ HA), (split_no_sep _ _ Hc).
Qed.

(** C8. An eligible request whose selector has two pieces or more, the
    first of which names no registered class, is answered with status
    404 and "Class <name> not found."; so is every such request by a
    dispatcher built from no class at all. *)
Theorem unknown_class_404 classes body s (A c : string) (mid : list string) w :
  field body "jsonrpc" = Some (JStr "2.0") →
  field body "method" = Some (JStr s) →
  split "." s = A :: mid ++ [c] →
  (build_instances classes !! A = None →
   handle classes body w =
   (Ok (), State
      [Status (JNum 404);
       Json (obj [("error", JStr ("Class " +:+ A +:+ " not found."))])]
      [] w)) ∧
  handle [] body w =
  (Ok (), State
     [Status (JNum 404);
      Json (obj [("error", JStr ("Class " +:+ A +:+ " not found."))])]
     [] w).
Proof.
  intros Hj Hm Hs.
  assert (∀ classes, build_instances classes !! A = None →
    handle classes body w =
    (Ok (), State
       [Status (JNum 404);
        Json (obj [("error", JStr ("Class " +:+ A +:+ " not found."))])]
       [] w)) as Hnone.
  { intros cs Hin. unfold handle.
    rewrite (handler_dispatch cs body s A c mid); [|done..].
    by apply dispatch_no_class. }
  split; [apply Hnone|].
  apply Hnone. apply lookup_empty.
Qed.

(** C9. An eligible request whose class name is registered and whose
    instance has no property of the method name is answered with status
    404 and "Method <name> not found"; no method is invoked. *)
Theorem unknown_method_404 classes instance body s (A c : string)
    (mid : list string) w :
  field body "jsonrpc" = Some (JStr "2.0") →
  field body "method" = Some (JStr s) →
  split "." s = A :: mid ++ [c] →
  build_instances classes !! A = Some instance →
  instance !! c = None →
  handle classes body w =
  (Ok (), State
     [Status (JNum 404);
      Json (obj [("error", JStr ("Method " +:+ c +:+ " not found"))])]
     [] w).
Proof.
  intros Hj Hm Hs Hc Hnone. unfold handle.
  rewrite (handler_dispatch classes body s A c mid); [|done..].
  apply (dispatch_no_method _ instance); [done|]. by rewrite Hnone.
Qed.

(** The request reaches the invocation: what is written and logged for
    each way the invocation can end. *)
Lemma handler_invoke classes instance body s (A c : string) (mid : list string)
    f args o w w' :
  field body "jsonrpc" = Some (JStr "2.0") →
  field body "method" = Some (JStr s) →
  split "." s = A :: mid ++ [c] →
  build_instances classes !! A = Some instance →
  instance !! c = Some (Method f) →
  arguments body = Some args →
  f args w = (o, w') →
  handle classes body w =
  (Ok (), State
     match awaited o with
     | inl response =>
         if nullish response then
           [Status (JNum 500);
            Json (obj [("error", JStr "Internal server error")])]
         else
           [Status (or_else (default JUndefined (field response "statusCode")) (JNum 200));
            SetHeader "Content-Type" "application/json";
            Status (JNum 200);
            Json (obj [("jsonrpc", JStr "2.0"); ("result", response); ("id", JNull)])] ++
           (if serialisable response then []
            else [Status (JNum 500);
                  Json (obj [("error", JStr "Internal server error")])])
     | inr _ =>
         [Status (JNum 500);
          Json (obj [("error", JStr "Internal server error")])]
     end
     [Call A c args] w').
Proof.
  intros Hj Hm Hs Hc Hf Ha Hcall. unfold handle.
  rewrite (handler_dispatch classes body s A c mid); [|done..].
  assert (nullish body = false) as Hn.
  { apply truthy_defined. by apply (field_defined _ "jsonrpc" (JStr "2.0")). }
  exact (dispatch_invoke _ instance body A c f args o w' (State [] [] w)
           Hn Hc Hf Ha Hcall).
Qed.

(** C5. When the invoked method completes and gives [null] or
    [undefined], the request is answered with status 500 and
    "Internal server error", not with a success envelope. *)
Theorem nullish_result_500 classes instance body s (A c : string)
    (mid : list string) f args o r w w' :
  field body "jsonrpc" = Some (JStr "2.0") →
  field body "method" = Some (JStr s) →
  split "." s = A :: mid ++ [c] →
  build_instances classes !! A = Some instance →
  instance !! c = Some (Method f) →
  arguments body = Some args →
  f args w = (o, w') →
  awaited o = inl r →
  nullish r = true →
  handle classes body w =
  (Ok (), State
     [Status (JNum 500); Json (obj [("error", JStr "Internal server error")])]
     [Call A c args] w').
Proof.
  intros Hj Hm Hs Hc Hf Ha Hcall Ho Hr.
  rewrite (handler_invoke classes instance body s A c mid f args o w w');
    [|done..].
  by rewrite Ho, Hr.
Qed.

(** C7. When the invoked method throws, or returns a promise that is
    rejected, the request is answered with status 500 and
    "Internal server error"; the error is dropped and the handler
    returns normally. *)
Theorem failed_invocation_500 classes instance body s (A c : string)
    (mid : list string) f args o e w w' :
  field body "jsonrpc" = Some (JStr "2.0") →
  field body "method" = Some (JStr s) →
  split "." s = A :: mid ++ [c] →
  build_instances classes !! A = Some instance →
  instance !! c = Some (Method f) →
  arguments body = Some args →
  f args w = (o, w') →
  o = Throws e ∨ o = Rejects e →
  handle classes body w =
  (Ok (), State
     [Status (JNum 500); Json (obj [("error", JStr "Internal server error")])]
     [Call A c args] w').
Proof.
  intros Hj Hm Hs Hc Hf Ha Hcall Ho.
  rewrite (handler_invoke classes instance body s A c mid f args o w w');
    [|done..].
  by destruct Ho as [-> | ->].
Qed.

(** X7. When the invoked method gives a value other than [null] and
    [undefined] that can be serialised, the client sees status 200 and
    the JSON-RPC envelope of that value. *)
Lemma value_result_200 classes instance body s (A c : string)
    (mid : list string) f args o r w w' :
  field body "jsonrpc" = Some (JStr "2.0") →
  field body "method" = Some (JStr s) →
  split "." s = A :: mid ++ [c] →
  build_instances classes !! A = Some instance →
  instance !! c = Some (Method f) →
  arguments body = Some args →
  f args w = (o, w') →
  awaited o = inl r →
  nullish r = false →
  serialisable r = true →
  (handle classes body w).1 = Ok () ∧
  sent (written (handle classes body w).2) =
    Some (JNum 200, obj [("jsonrpc", JStr "2.0"); ("result", r); ("id", JNull)]) ∧
  invoked (handle classes body w).2 = [Call A c args] ∧
  world (handle classes body w).2 = w'.
Proof.
  intros Hj Hm Hs Hc Hf Ha Hcall Ho Hr Hser.
  rewrite (handler_invoke classes instance body s A c mid f args o w w');
    [|done..].
  rewrite Ho, Hr, Hser. repeat split.
  cbn [snd written app sent sent_from].
  by rewrite serialisable_envelope, Hser.
Qed.

End Facts.

(** ** The handler on the two services *)

Section Scenarios.

Import Examples.

(** A greeting is returned in the envelope. *)
Example hello_world :
  handle services (request "HelloWorldService.sayHello" [JStr "World"]) [] =
  (Ok (), State
     [Status (JNum 200);
      SetHeader "Content-Type" "application/json";
      Status (JNum 200);
      Json (obj [("jsonrpc", JStr "2.0"); ("result", JStr "Hello, World"); ("id", JNull)])]
     [Call "HelloWorldService" "sayHello" [JStr "World"]] []).
Proof. vm_compute. reflexivity. Qed.

(** C1. The claim fails for a method that returns nothing: [add] is
    invoked with the request's arguments and completes, the item is in
    the cart, and the answer is status 500 with "Internal server error"
    where the claim has status 200 and the envelope of the returned
    value. *)
Theorem void_method_answered_500 :
  handle services (request "ShoppingCartService.add" [JStr "apple"]) [] =
  (Ok (), State
     [Status (JNum 500); Json (obj [("error", JStr "Internal server error")])]
     [Call "ShoppingCartService" "add" [JStr "apple"]] [JStr "apple"])
  ∧ add [JStr "apple"] [] = (Returns JUndefined, [JStr "apple"])
  ∧ sent (written (handle services (request "ShoppingCartService.add" [JStr "apple"]) []).2)
    ≠ Some (JNum 200,
            obj [("jsonrpc", JStr "2.0"); ("result", JUndefined); ("id", JNull)]).
Proof.
  split; [vm_compute; reflexivity|]. split; [reflexivity|].
  vm_compute. discriminate.
Qed.

(** C2, as stated, fails twice.  A body [{}] has no [method] and is not
    eligible: nothing is sent.  An absent body is eligible, and reading
    its [method] throws: nothing is sent either. *)
Lemma missing_method_not_always_400 :
  (field (obj []) "method" = None ∧
   handle services (obj []) [] = (Ok (), State [] [] []) ∧
   sent (written (handle services (obj []) []).2) = None) ∧
  (field JUndefined "method" = None ∧
   handle services JUndefined [] =
     (Raise (TypeError "Cannot read properties of undefined (reading 'method')"),
      State [] [] []) ∧
   sent (written (handle services JUndefined []).2) = None).
Proof. repeat split; vm_compute; reflexivity. Qed.

(** C4, as stated, fails for the body [false]: it is falsy, no exception
    leaves the handler and a response is written. *)
Lemma false_body_answered_400 :
  truthy (JBool false) = false ∧
  handle services (JBool false) [] =
  (Ok (), State
     [Status (JNum 400);
      Json (obj [("error",
        JStr "Request invalid. Missing 'method' property from body.")])]
     [] []) ∧
  (∀ e, (handle services (JBool false) []).1 ≠ Raise e) ∧
  written (handle services (JBool false) []).2 ≠ [].
Proof.
  split; [reflexivity|]. split; [vm_compute; reflexivity|].
  split; [intros e|]; vm_compute; discriminate.
Qed.

(** C10, as stated, fails for the empty selector: it splits into one
    piece, and the answer is the missing-method message, not the format
    message. *)
Lemma empty_selector_reported_missing :
  field (request "" []) "method" = Some (JStr "") ∧
  (length (split "." "") < 2)%nat ∧
  sent (written (handle services (request "" []) []).2) =
    Some (JNum 400,
          obj [("error", JStr "Request invalid. Missing 'method' property from body.")]) ∧
  sent (written (handle services (request "" []) []).2) ≠
    Some (JNum 400,
          obj [("error",
            JStr "Request invalid. Incorrect 'method' property format. It should be <classname.methodname>.")]).
Proof.
  split; [vm_compute; reflexivity|]. split; [simpl; lia|].
  split; [vm_compute; reflexivity|].
  vm_compute. discriminate.
Qed.

(** *** The theorems at concrete requests *)

(** A JSON-RPC body without [method]. *)
Lemma missing_method_400_witness :
  handle services (obj [("jsonrpc", JStr "2.0"); ("params", JArr [])]) [] =
  (Ok (), State
     [Status (JNum 400);
      Json (obj [("error",
        JStr "Request invalid. Missing 'method' property from body.")])]
     [] []).
Proof.
  apply (missing_method_400 services).
  - reflexivity.
  - intros _. vm_compute. reflexivity.
  - vm_compute. reflexivity.
Defined.

(** A request that declares another version of JSON-RPC. *)
Lemma ineligible_request_ignored_witness :
  handle services
    (obj [("jsonrpc", JStr "1.0"); ("method", JStr "HelloWorldService.sayHello")]) [] =
  (Ok (), State [] [] []).
Proof.
  apply (ineligible_request_ignored services).
  - reflexivity.
  - vm_compute. reflexivity.
Defined.

(** The bodies [null] and [""]. *)
Lemma absent_body_TypeError_witness :
  (∃ msg, handle services JNull [] = (Raise (TypeError msg), State [] [] [])) ∧
  handle services (JStr "") [] =
  (Ok (), State
     [Status (JNum 400);
      Json (obj [("error",
        JStr "Request invalid. Missing 'method' property from body.")])]
     [] []).
Proof.
  split.
  - apply (proj1 (absent_body_TypeError services JNull [] eq_refl)). reflexivity.
  - apply (proj2 (absent_body_TypeError services (JStr "") [] eq_refl)). reflexivity.
Defined.

(** A selector that is a method name only. *)
Lemma selector_without_dot_400_witness :
  handle services (request "sayHello" [JStr "World"]) [] =
  (Ok (), State
     [Status (JNum 400);
      Json (obj [("error",
        JStr "Request invalid. Incorrect 'method' property format. It should be <classname.methodname>.")])]
     [] []).
Proof.
  apply (selector_without_dot_400 services _ "sayHello").
  - vm_compute. reflexivity.
  - vm_compute. reflexivity.
  - discriminate.
  - simpl. lia.
Defined.

(** The middle piece of a selector does not count: the greeting service
    is looked up, its [sayHello] is invoked, and its greeting answered. *)
Lemma selector_first_and_last_witness :
  handle services (request "HelloWorldService.v1.sayHello" [JStr "World"]) [] =
  (Ok (), State
     [Status (JNum 200);
      SetHeader "Content-Type" "application/json";
      Status (JNum 200);
      Json (obj [("jsonrpc", JStr "2.0"); ("result", JStr "Hello, World"); ("id", JNull)])]
     [Call "HelloWorldService" "sayHello" [JStr "World"]] []).
Proof.
  refine (proj1 (proj2 (proj2
    (selector_first_and_last services
       (list_to_map [("jsonrpc", JStr "2.0");
                     ("method", JStr "HelloWorldService.v1.sayHello");
                     ("params", JArr [JStr "World"])])
       "HelloWorldService.v1.sayHello" "HelloWorldService" "sayHello" ["v1"] []
       _ _ _)))
    (new HelloWorldService) sayHello [JStr "World"]
    (Returns (JStr "Hello, World")) [] _ _ _ _).
  - vm_compute. reflexivity.
  - vm_compute. reflexivity.
  - vm_compute. reflexivity.
  - vm_compute. reflexivity.
  - vm_compute. reflexivity.
  - vm_compute. reflexivity.
  - reflexivity.
Defined.

(** A service that was not registered. *)
Lemma unknown_class_404_witness :
  handle services (request "ProductService.list" []) [] =
  (Ok (), State
     [Status (JNum 404);
      Json (obj [("error", JStr "Class ProductService not found.")])]
     [] []).
Proof.
  refine (proj1 (unknown_class_404 services (request "ProductService.list" [])
                   "ProductService.list" "ProductService" "list" [] [] _ _ _) _).
  - vm_compute. reflexivity.
  - vm_compute. reflexivity.
  - vm_compute. reflexivity.
  - vm_compute. reflexivity.
Defined.

(** A method the greeting service does not have. *)
Lemma unknown_method_404_witness :
  handle services (request "HelloWorldService.sayGoodbye" [JStr "World"]) [] =
  (Ok (), State
     [Status (JNum 404);
      Json (obj [("error", JStr "Method sayGoodbye not found")])]
     [] []).
Proof.
  apply (unknown_method_404 services (new HelloWorldService) _
           "HelloWorldService.sayGoodbye" "HelloWorldService" "sayGoodbye" []).
  - vm_compute. reflexivity.
  - vm_compute. reflexivity.
  - vm_compute. reflexivity.
  - vm_compute. reflexivity.
  - vm_compute. reflexivity.
Defined.

(** Adding an item to the cart succeeds, and is answered with 500. *)
Lemma nullish_result_500_witness :
  handle services (request "ShoppingCartService.add" [JStr "apple"]) [] =
  (Ok (), State
     [Status (JNum 500); Json (obj [("error", JStr "Internal server error")])]
     [Call "ShoppingCartService" "add" [JStr "apple"]] [JStr "apple"]).
Proof.
  apply (nullish_result_500 services (new ShoppingCartService) _
           "ShoppingCartService.add" "ShoppingCartService" "add" []
           add [JStr "apple"] (Returns JUndefined) JUndefined).
  - vm_compute. reflexivity.
  - vm_compute. reflexivity.
  - vm_compute. reflexivity.
  - vm_compute. reflexivity.
  - vm_compute. reflexivity.
  - vm_compute. reflexivity.
  - reflexivity.
  - reflexivity.
  - reflexivity.
Defined.

(** A declined payment. *)
Lemma failed_invocation_500_witness :
  handle services (request "ShoppingCartService.checkout" []) [JStr "apple"] =
  (Ok (), State
     [Status (JNum 500); Json (obj [("error", JStr "Internal server error")])]
     [Call "ShoppingCartService" "checkout" []] [JStr "apple"]).
Proof.
  apply (failed_invocation_500 services (new ShoppingCartService) _
           "ShoppingCartService.checkout" "ShoppingCartService" "checkout" []
           checkout [] (Rejects (JStr "payment declined")) (JStr "payment declined")).
  - vm_compute. reflexivity.
  - vm_compute. reflexivity.
  - vm_compute. reflexivity.
  - vm_compute. reflexivity.
  - vm_compute. reflexivity.
  - vm_compute. reflexivity.
  - reflexivity.
  - right. reflexivity.
Defined.

End Scenarios.

(** * Beyond the single paths *)

(** X17. Joining the pieces with the separator gives the string back:
    [s.split(sep).join(sep) === s]. *)
Lemma split_concat sep s : String.concat (String sep "") (split sep s) = s.
Proof.
  induction s as [|c rest IH]; simpl; [done|].
  pose proof (split_nonempty sep rest) as Hne.
  destruct (Ascii.eqb c sep) eqn:Hc.
  - apply Ascii.eqb_eq in Hc as ->.
    destruct (split sep rest) as [|piece pieces] eqn:Hs; [done|].
    simpl in *. by rewrite IH.
  - destruct (split sep rest) as [|piece pieces] eqn:Hs; [done|].
    simpl in *. destruct pieces; simpl in *; by rewrite <- IH.
Qed.

Section Paths.

Context {W : Type}.

Implicit Types (classes : list (AnyClass W)) (c : AnyClass W).
Implicit Types (body v : jsval) (st : state W) (w : W).
Implicit Types (instance : gmap string (member W)).

(** ** Requests the claims leave aside *)

(** X1 (line 47). An eligible request whose [method] is truthy and not a
    string has no [split] to call: a [TypeError] leaves the handler,
    outside the [try], and nothing is written or invoked. *)
Theorem non_string_method_TypeError classes body m w :
  field body "jsonrpc" = Some (JStr "2.0") →
  field body "method" = Some m →
  truthy m = true →
  (∀ s, m ≠ JStr s) →
  handle classes body w =
  (Raise (TypeError "split is not a function"), State [] [] w).
Proof.
  intros Hj Hm Ht Hs.
  pose proof (truthy_defined _ (field_defined _ _ _ Hj)) as Hn.
  unfold handle, createExpressRouter.
  rewrite (field_defined _ _ _ Hj), !(get_defined _ _ Hn), Hj, Hm.
  unfold mbind, M_bind, mret, M_ret. simpl. rewrite Ht. simpl.
  destruct m; try done. by destruct (Hs s).
Qed.

(** X2. Line 68 tests the value of [instance[method]], not its presence: a
    property that holds a falsy value is reported as a method that was
    not found. *)
Theorem falsy_member_404 classes instance body s (A c : string)
    (mid : list string) v w :
  field body "jsonrpc" = Some (JStr "2.0") →
  field body "method" = Some (JStr s) →
  split "." s = A :: mid ++ [c] →
  build_instances classes !! A = Some instance →
  instance !! c = Some (Data v) →
  truthy v = false →
  handle classes body w =
  (Ok (), State
     [Status (JNum 404);
      Json (obj [("error", JStr ("Method " +:+ c +:+ " not found"))])]
     [] w).
Proof.
  intros Hj Hm Hs Hc Hv Ht. unfold handle.
  rewrite (handler_dispatch classes body s A c mid); [|done..].
  apply (dispatch_no_method _ instance); [done|]. by rewrite Hv.
Qed.

(** X3 (lines 68 and 76). A property that holds a truthy value that is not a
    function passes the test of line 68; calling it throws inside the
    [try], and the answer is status 500. *)
Theorem non_function_member_500 classes instance body s (A c : string)
    (mid : list string) v w :
  field body "jsonrpc" = Some (JStr "2.0") →
  field body "method" = Some (JStr s) →
  split "." s = A :: mid ++ [c] →
  build_instances classes !! A = Some instance →
  instance !! c = Some (Data v) →
  truthy v = true →
  handle classes body w =
  (Ok (), State
     [Status (JNum 500); Json (obj [("error", JStr "Internal server error")])]
     [] w).
Proof.
  intros Hj Hm Hs Hc Hv Ht. unfold handle.
  pose proof (truthy_defined _ (field_defined _ _ _ Hj)) as Hn.
  rewrite (handler_dispatch classes body s A c mid); [|done..].
  unfold dispatch. rewrite Hc, Hv, (get_defined _ _ Hn). simpl. rewrite Ht. simpl.
  unfold try_catch, spread, await_call, throw, mbind, M_bind, mret, M_ret,
    res_status, res_json, res_do. simpl.
  by destruct (elements_of _).
Qed.

(** X4 (line 76). [params] that are truthy and cannot be iterated (a number,
    [true], an object) make the spread throw inside the [try]: the
    answer is status 500 and the method is not invoked. *)
Theorem non_iterable_params_500 classes instance body s (A c : string)
    (mid : list string) w :
  field body "jsonrpc" = Some (JStr "2.0") →
  field body "method" = Some (JStr s) →
  split "." s = A :: mid ++ [c] →
  build_instances classes !! A = Some instance →
  member_truthy (instance !! c) = true →
  arguments body = None →
  handle classes body w =
  (Ok (), State
     [Status (JNum 500); Json (obj [("error", JStr "Internal server error")])]
     [] w).
Proof.
  intros Hj Hm Hs Hc Hv Ha. unfold handle. unfold arguments in Ha.
  pose proof (truthy_defined _ (field_defined _ _ _ Hj)) as Hn.
  rewrite (handler_dispatch classes body s A c mid); [|done..].
  unfold dispatch. rewrite Hc, Hv, (get_defined _ _ Hn). simpl.
  unfold try_catch, spread, throw, mbind, M_bind, mret, M_ret,
    res_status, res_json, res_do. simpl.
  by rewrite Ha.
Qed.

(** X5 (line 76). With [params] absent or falsy ([null], [0], [""], [false])
    the method is invoked with no argument at all. *)
Theorem falsy_params_no_arguments classes instance body s (A c : string)
    (mid : list string) f o w w' :
  field body "jsonrpc" = Some (JStr "2.0") →
  field body "method" = Some (JStr s) →
  split "." s = A :: mid ++ [c] →
  build_instances classes !! A = Some instance →
  instance !! c = Some (Method f) →
  truthy (default JUndefined (field body "params")) = false →
  f [] w = (o, w') →
  invoked (handle classes body w).2 = [Call A c []] ∧
  world (handle classes body w).2 = w'.
Proof.
  intros Hj Hm Hs Hc Hf Hp Hcall.
  rewrite (handler_invoke classes instance body s A c mid f [] o w w');
    [done..| |done].
  unfold arguments, or_else. by rewrite Hp.
Qed.

(** X6 (lines 80-88). A truthy [statusCode] on a result that can be
    serialised is given to [res.status], and then replaced by 200 before
    the body is sent: the client never sees it. *)
Theorem status_code_overridden classes instance body s (A c : string)
    (mid : list string) f args o r sc w w' :
  field body "jsonrpc" = Some (JStr "2.0") →
  field body "method" = Some (JStr s) →
  split "." s = A :: mid ++ [c] →
  build_instances classes !! A = Some instance →
  instance !! c = Some (Method f) →
  arguments body = Some args →
  f args w = (o, w') →
  awaited o = inl r →
  field r "statusCode" = Some sc →
  truthy sc = true →
  serialisable r = true →
  written (handle classes body w).2 =
    [Status sc;
     SetHeader "Content-Type" "application/json";
     Status (JNum 200);
     Json (obj [("jsonrpc", JStr "2.0"); ("result", r); ("id", JNull)])] ∧
  sent (written (handle classes body w).2) =
    Some (JNum 200, obj [("jsonrpc", JStr "2.0"); ("result", r); ("id", JNull)]).
Proof.
  intros Hj Hm Hs Hc Hf Ha Hcall Ho Hsc Ht Hser.
  rewrite (handler_invoke classes instance body s A c mid f args o w w');
    [|done..].
  rewrite Ho, (truthy_defined r (field_defined _ _ _ Hsc)), Hsc, Hser.
  unfold or_else. simpl default. rewrite Ht.
  split; [done|].
  cbn [snd written app sent sent_from].
  by rewrite serialisable_envelope, Hser.
Qed.

(** X18 (lines 88-96). [res.json] is called inside the [try]: when the
    method's result cannot be serialised (a [BigInt], or a value that
    holds one), the call throws after the status and the header were
    set, and the [catch] answers with status 500. *)
Theorem unserialisable_result_500 classes instance body s (A c : string)
    (mid : list string) f args o r w w' :
  field body "jsonrpc" = Some (JStr "2.0") →
  field body "method" = Some (JStr s) →
  split "." s = A :: mid ++ [c] →
  build_instances classes !! A = Some instance →
  instance !! c = Some (Method f) →
  arguments body = Some args →
  f args w = (o, w') →
  awaited o = inl r →
  nullish r = false →
  serialisable r = false →
  handle classes body w =
  (Ok (), State
     [Status (or_else (default JUndefined (field r "statusCode")) (JNum 200));
      SetHeader "Content-Type" "application/json";
      Status (JNum 200);
      Json (obj [("jsonrpc", JStr "2.0"); ("result", r); ("id", JNull)]);
      Status (JNum 500);
      Json (obj [("error", JStr "Internal server error")])]
     [Call A c args] w') ∧
  sent (written (handle classes body w).2) =
    Some (JNum 500, obj [("error", JStr "Internal server error")]).
Proof.
  intros Hj Hm Hs Hc Hf Ha Hcall Ho Hr Hser.
  rewrite (handler_invoke classes instance body s A c mid f args o w w');
    [|done..].
  rewrite Ho, Hr, Hser. split; [done|].
  cbn [snd written app sent sent_from].
  by rewrite serialisable_envelope, Hser.
Qed.

(** X8. The handler reads three fields of the body and no other: a field of
    another name, such as [id], changes nothing. *)
Theorem other_fields_ignored classes (props : gmap string jsval) (k : string) v w :
  k ∉ ["jsonrpc"; "method"; "params"] →
  handle classes (JObj (<[k := v]> props)) w = handle classes (JObj props) w.
Proof.
  intros Hk. unfold handle, createExpressRouter, dispatch, get. simpl.
  rewrite !lookup_insert_ne; [done|set_solver..].
Qed.

End Paths.

Section Whole.

Context {W : Type}.

Implicit Types (classes : list (AnyClass W)) (c : AnyClass W).
Implicit Types (body v : jsval) (st : state W) (w : W).
Implicit Types (instance : gmap string (member W)).

(** ** Every request *)

Lemma strict_eq_str_true v (lit : string) :
  strict_eq_str v lit = true → v = JStr lit.
Proof.
  destruct v; try done. simpl. intros Hs. by apply String.eqb_eq in Hs as ->.
Qed.

Lemma default_field_str body (k s : string) :
  default JUndefined (field body k) = JStr s → field body k = Some (JStr s).
Proof. destruct (field body k); simpl; [by intros ->|done]. Qed.

Lemma falsy_body_no_field body (k : string) :
  truthy body = false → field body k = None.
Proof. by destruct body. Qed.

(** An eligible request whose [method] is truthy and not a string. *)
Lemma handler_non_string classes body m st :
  nullish body = false →
  (truthy body = true → field body "jsonrpc" = Some (JStr "2.0")) →
  field body "method" = Some m →
  truthy m = true →
  (∀ s, m ≠ JStr s) →
  createExpressRouter classes body st =
  (Raise (TypeError "split is not a function"), st).
Proof.
  intros Hn He Hm Ht Hs. unfold createExpressRouter.
  rewrite !(get_defined _ _ Hn), Hm.
  destruct (truthy body) eqn:Hb; [rewrite (He eq_refl)|];
    unfold mbind, M_bind, mret, M_ret; simpl; rewrite Ht; simpl;
    destruct m; try done; by destruct (Hs s).
Qed.

(** The property is truthy, and the call is not made: the arguments
    cannot be iterated, or the property is not a function. *)
Lemma dispatch_not_called (instances : gmap string (gmap string (member W)))
    instance body (className method : string) st :
  nullish body = false →
  instances !! className = Some instance →
  member_truthy (instance !! method) = true →
  arguments body = None ∨ (∃ v, instance !! method = Some (Data v)) →
  dispatch instances body className method st =
  (Ok (), State
     (written st ++ [Status (JNum 500)] ++
        [Json (obj [("error", JStr "Internal server error")])])
     (invoked st) (world st)).
Proof.
  intros Hn Hc Ht Hwhy. unfold dispatch, arguments in *.
  rewrite Hc, Ht, (get_defined _ _ Hn). simpl.
  unfold try_catch, spread, await_call, throw, mbind, M_bind, mret, M_ret,
    res_status, res_json, res_do. simpl.
  destruct Hwhy as [Ha|[v Hv]].
  - rewrite Ha. simpl. by rewrite <- app_assoc.
  - rewrite Hv. destruct (elements_of _); simpl; by rewrite <- app_assoc.
Qed.

(** Every request falls in one of four cases: an early [TypeError], an
    ineligible request, an error answer without invocation, or one
    invocation and the answer that follows from it. *)
Lemma handle_cases classes body w :
  (∃ msg, handle classes body w = (Raise (TypeError msg), State [] [] w)) ∨
  (truthy body = true ∧
   strict_eq_str (default JUndefined (field body "jsonrpc")) "2.0" = false ∧
   handle classes body w = (Ok (), State [] [] w)) ∨
  ((truthy body = true →
    strict_eq_str (default JUndefined (field body "jsonrpc")) "2.0" = true) ∧
   ∃ (code : float) (msg : string),
     (code = 400 ∨ code = 404 ∨ code = 500)%float ∧
     handle classes body w =
     (Ok (), State [Status (JNum code); Json (obj [("error", JStr msg)])] [] w)) ∨
  ((truthy body = true →
    strict_eq_str (default JUndefined (field body "jsonrpc")) "2.0" = true) ∧
   ∃ (A c : string) instance f args o w',
     build_instances classes !! A = Some instance ∧
     instance !! c = Some (Method f) ∧
     arguments body = Some args ∧
     f args w = (o, w') ∧
     handle classes body w =
     (Ok (), State
        match awaited o with
        | inl response =>
            if nullish response then
              [Status (JNum 500);
               Json (obj [("error", JStr "Internal server error")])]
            else
              [Status (or_else (default JUndefined (field response "statusCode")) (JNum 200));
               SetHeader "Content-Type" "application/json";
               Status (JNum 200);
               Json (obj [("jsonrpc", JStr "2.0"); ("result", response); ("id", JNull)])] ++
              (if serialisable response then []
               else [Status (JNum 500);
                     Json (obj [("error", JStr "Internal server error")])])
        | inr _ =>
            [Status (JNum 500);
             Json (obj [("error", JStr "Internal server error")])]
        end
        [Call A c args] w')).
Proof.
  unfold handle.
  destruct (nullish body) eqn:Hn.
  { left. by apply handler_nullish_body. }
  destruct (truthy body) eqn:Ht;
    [destruct (strict_eq_str (default JUndefined (field body "jsonrpc")) "2.0") eqn:Hj|].
  2:{ right. left. by rewrite handler_not_eligible. }
  2:{ right. right. left. split; [done|]. eexists _, _. split; [by left|].
      rewrite handler_missing_method; [done|done|by rewrite Ht|].
      by rewrite (falsy_body_no_field _ _ Ht). }
  assert (field body "jsonrpc" = Some (JStr "2.0")) as Hjf.
  { by apply default_field_str, strict_eq_str_true. }
  destruct (truthy (default JUndefined (field body "method"))) eqn:Hm.
  2:{ right. right. left. split; [done|]. eexists _, _. split; [by left|].
      by rewrite handler_missing_method. }
  destruct (field body "method") as [m|] eqn:Hmf; [|done]. simpl in Hm.
  assert ((∃ s, m = JStr s) ∨ (∀ s, m ≠ JStr s)) as [[s ->]|Hns].
  { destruct m; eauto. }
  2:{ left. eexists. by apply (handler_non_string _ _ m). }
  assert (String.eqb s "" = false) as Hne.
  { simpl in Hm. by destruct (String.eqb s ""). }
  rewrite (handler_selector _ _ _ _ Hjf Hmf Hne).
  destruct (length (split "." s) <? 2)%nat.
  { right. right. left. split; [done|]. eexists _, _. split; [by left|].
    reflexivity. }
  set (A := default "" (head (split "." s))).
  set (c := default "" (last (split "." s))).
  destruct (build_instances classes !! A) as [instance|] eqn:HA.
  2:{ right. right. left. split; [done|]. eexists _, _. split; [by right; left|].
      by rewrite dispatch_no_class. }
  destruct (member_truthy (instance !! c)) eqn:Hc.
  2:{ right. right. left. split; [done|]. eexists _, _. split; [by right; left|].
      by rewrite (dispatch_no_method _ instance). }
  destruct (arguments body) as [args|] eqn:Ha.
  2:{ right. right. left. split; [done|]. eexists _, _. split; [by right; right|].
      rewrite (dispatch_not_called _ instance); [done..|]. by left. }
  destruct (instance !! c) as [[v|f]|] eqn:Hf; [| |done].
  { right. right. left. split; [done|]. eexists _, _. split; [by right; right|].
    rewrite (dispatch_not_called _ instance); [done|done|done|by rewrite Hf|].
    right. eauto. }
  destruct (f args w) as [o w'] eqn:Hcall.
  right. right. right. split; [done|].
  exists A, c, instance, f, args, o, w'. repeat split; try done.
  exact (dispatch_invoke _ instance body A c f args o w' (State [] [] w)
           Hn HA Hf Ha Hcall).
Qed.

(** X9. Whatever the classes and the body, an exception that leaves the
    handler is a [TypeError] raised before anything was written on [res]
    or invoked: what a method throws, and what [res.json] throws on the
    method's result, never leaves it. *)
Theorem escape_is_early_TypeError classes body w e :
  (handle classes body w).1 = Raise e →
  (∃ msg, e = TypeError msg) ∧ (handle classes body w).2 = State [] [] w.
Proof.
  destruct (handle_cases classes body w)
    as [[msg ->]|[(_ & _ & ->)|[(_ & code & msg & _ & ->)|
        (_ & A & c & instance & f & args & o & w' & _ & _ & _ & _ & ->)]]];
    simpl; intros He; simplify_eq; eauto.
Qed.


(** X11. Whatever the classes and the body, either nothing is invoked and
    the instances' state is untouched, or exactly one function is
    invoked: a property of a registered instance, on the arguments of
    the request, and the state is the one that invocation leaves. *)
Theorem at_most_one_invocation classes body w :
  (invoked (handle classes body w).2 = [] ∧ world (handle classes body w).2 = w) ∨
  (∃ (A c : string) instance f args o,
     build_instances classes !! A = Some instance ∧
     instance !! c = Some (Method f) ∧
     arguments body = Some args ∧
     f args w = (o, world (handle classes body w).2) ∧
     invoked (handle classes body w).2 = [Call A c args]).
Proof.
  destruct (handle_cases classes body w)
    as [[msg ->]|[(_ & _ & ->)|[(_ & code & msg & Hcode & ->)|
        (_ & A & c & instance & f & args & o & w' & HA & Hf & Ha & Hcall & ->)]]];
    [by left..|].
  right. by exists A, c, instance, f, args, o.
Qed.

(** X12. A response is sent exactly when the handler returns normally from
    an eligible request: the requests left without an answer are the
    ineligible ones and those that make the handler throw. *)
Theorem answered_iff_eligible_and_returned classes body w :
  is_Some (sent (written (handle classes body w).2)) ↔
  (handle classes body w).1 = Ok () ∧
  (truthy body = true →
   strict_eq_str (default JUndefined (field body "jsonrpc")) "2.0" = true).
Proof.
  destruct (handle_cases classes body w)
    as [[msg ->]|[(Ht & Hj & ->)|[(He & code & msg & Hcode & ->)|
        (He & A & c & instance & f & args & o & w' & _ & _ & _ & _ & ->)]]];
    cbn [fst snd written].
  - split; [by intros [? ?]|by intros [? ?]].
  - split; [by intros [? ?]|]. intros [_ He]. specialize (He Ht). congruence.
  - split; [done|]. intros _. unfold sent. cbn [sent_from].
    by rewrite serialisable_error.
  - split; [done|]. intros _. unfold sent.
    destruct (awaited o) as [response|err].
    + destruct (nullish response).
      * cbn [sent_from]. by rewrite serialisable_error.
      * destruct (serialisable response) eqn:Hser;
          cbn [app sent_from];
          by rewrite serialisable_envelope, Hser, ?serialisable_error.
    + cbn [sent_from]. by rewrite serialisable_error.
Qed.


(** ** The class list *)

Lemma foldl_insert_shadowed (cs : list (AnyClass W)) c
    (m : gmap string (gmap string (member W))) :
  name c ∈ name <$> cs →
  foldl (λ instances c', <[name c' := new c']> instances) (<[name c := new c]> m) cs =
  foldl (λ instances c', <[name c' := new c']> instances) m cs.
Proof.
  revert m. induction cs as [|c' cs IH]; intros m Hin; simpl in *.
  - by apply elem_of_nil in Hin.
  - destruct (decide (name c' = name c)) as [Heq|Hne].
    + by rewrite Heq, insert_insert_eq.
    + rewrite insert_insert_ne by done. apply IH.
      apply elem_of_cons in Hin as [Hin|Hin]; [congruence|done].
Qed.

(** X13 (lines 31-34). A class whose name is used again later in the
    list, wherever it stands, is replaced: the handler is the one built
    without it. *)
Theorem shadowed_class_unreachable (before after : list (AnyClass W)) c body w :
  name c ∈ name <$> after →
  handle (before ++ c :: after) body w = handle (before ++ after) body w.
Proof.
  intros Hin. unfold handle, createExpressRouter, build_instances.
  rewrite !foldl_app. simpl. by rewrite foldl_insert_shadowed.
Qed.

(** X14. Two class lists that register the same instance, or none, under the
    first piece of the selector handle the request alike: what else is
    registered does not matter. *)
Theorem other_classes_irrelevant (classes classes' : list (AnyClass W)) body w :
  (∀ s, field body "method" = Some (JStr s) →
        build_instances classes !! default "" (head (split "." s)) =
        build_instances classes' !! default "" (head (split "." s))) →
  handle classes body w = handle classes' body w.
Proof.
  intros Hsame. unfold handle, createExpressRouter, get. simpl.
  destruct (nullish body) eqn:Hn; [by destruct (truthy body)|].
  destruct (field body "method") as [m|] eqn:Hm; simpl; [|done].
  destruct m; try done.
  unfold call_split, dispatch, mbind, M_bind, mret, M_ret. simpl.
  by rewrite (Hsame s eq_refl).
Qed.

End Whole.

(** ** The handler on the catalogue *)

Section MoreScenarios.

Import Examples Catalogue.

(** A number as [method]. *)
Lemma non_string_method_TypeError_witness :
  handle catalogue (obj [("jsonrpc", JStr "2.0"); ("method", JNum 42)]) [] =
  (Raise (TypeError "split is not a function"), State [] [] []).
Proof.
  apply (non_string_method_TypeError catalogue _ (JNum 42)).
  - vm_compute. reflexivity.
  - vm_compute. reflexivity.
  - reflexivity.
  - intros s. discriminate.
Defined.

(** The discount of the catalogue is 0. *)
Lemma falsy_member_404_witness :
  handle catalogue (request "ProductService.discount" []) [] =
  (Ok (), State
     [Status (JNum 404);
      Json (obj [("error", JStr "Method discount not found")])]
     [] []).
Proof.
  apply (falsy_member_404 catalogue (new ProductService) _
           "ProductService.discount" "ProductService" "discount" [] (JNum 0)).
  - vm_compute. reflexivity.
  - vm_compute. reflexivity.
  - vm_compute. reflexivity.
  - vm_compute. reflexivity.
  - vm_compute. reflexivity.
  - reflexivity.
Defined.

(** The version of the catalogue is a string, not a function. *)
Lemma non_function_member_500_witness :
  handle catalogue (request "ProductService.version" []) [] =
  (Ok (), State
     [Status (JNum 500); Json (obj [("error", JStr "Internal server error")])]
     [] []).
Proof.
  apply (non_function_member_500 catalogue (new ProductService) _
           "ProductService.version" "ProductService" "version" [] (JStr "1.2.0")).
  - vm_compute. reflexivity.
  - vm_compute. reflexivity.
  - vm_compute. reflexivity.
  - vm_compute. reflexivity.
  - vm_compute. reflexivity.
  - reflexivity.
Defined.

(** A number as [params]. *)
Lemma non_iterable_params_500_witness :
  handle catalogue
    (obj [("jsonrpc", JStr "2.0"); ("method", JStr "HelloWorldService.sayHello");
          ("params", JNum 5)]) [] =
  (Ok (), State
     [Status (JNum 500); Json (obj [("error", JStr "Internal server error")])]
     [] []).
Proof.
  apply (non_iterable_params_500 catalogue (new HelloWorldService) _
           "HelloWorldService.sayHello" "HelloWorldService" "sayHello" []).
  - vm_compute. reflexivity.
  - vm_compute. reflexivity.
  - vm_compute. reflexivity.
  - vm_compute. reflexivity.
  - vm_compute. reflexivity.
  - vm_compute. reflexivity.
Defined.

(** A request without [params]. *)
Lemma falsy_params_no_arguments_witness :
  invoked (handle services
    (obj [("jsonrpc", JStr "2.0"); ("method", JStr "ShoppingCartService.list")])
    [JStr "apple"]).2 = [Call "ShoppingCartService" "list" []] ∧
  world (handle services
    (obj [("jsonrpc", JStr "2.0"); ("method", JStr "ShoppingCartService.list")])
    [JStr "apple"]).2 = [JStr "apple"].
Proof.
  apply (falsy_params_no_arguments services (new ShoppingCartService) _
           "ShoppingCartService.list" "ShoppingCartService" "list" []
           list_items (Returns (JArr [JStr "apple"]))).
  - vm_compute. reflexivity.
  - vm_compute. reflexivity.
  - vm_compute. reflexivity.
  - vm_compute. reflexivity.
  - vm_compute. reflexivity.
  - vm_compute. reflexivity.
  - reflexivity.
Defined.

(** The 404 of [find] reaches [res.status] and is replaced by 200. *)
Lemma status_code_overridden_witness :
  sent (written (handle catalogue (request "ProductService.find" [JStr "p1"]) []).2) =
  Some (JNum 200,
        obj [("jsonrpc", JStr "2.0");
             ("result", obj [("statusCode", JNum 404);
                             ("message", JStr "no such product")]);
             ("id", JNull)]).
Proof.
  apply (status_code_overridden catalogue (new ProductService) _
           "ProductService.find" "ProductService" "find" []
           find [JStr "p1"]
           (Returns (obj [("statusCode", JNum 404); ("message", JStr "no such product")]))
           _ (JNum 404) [] []).
  - vm_compute. reflexivity.
  - vm_compute. reflexivity.
  - vm_compute. reflexivity.
  - vm_compute. reflexivity.
  - vm_compute. reflexivity.
  - vm_compute. reflexivity.
  - reflexivity.
  - reflexivity.
  - vm_compute. reflexivity.
  - reflexivity.
  - vm_compute. reflexivity.
Defined.

(** The stock is a [BigInt]: the envelope cannot be serialised. *)
Lemma unserialisable_result_500_witness :
  handle catalogue (request "ProductService.stock" []) [] =
  (Ok (), State
     [Status (JNum 200);
      SetHeader "Content-Type" "application/json";
      Status (JNum 200);
      Json (obj [("jsonrpc", JStr "2.0"); ("result", JBigInt 12); ("id", JNull)]);
      Status (JNum 500);
      Json (obj [("error", JStr "Internal server error")])]
     [Call "ProductService" "stock" []] []).
Proof.
  apply (unserialisable_result_500 catalogue (new ProductService) _
           "ProductService.stock" "ProductService" "stock" []
           stock [] (Returns (JBigInt 12)) (JBigInt 12) [] []).
  - vm_compute. reflexivity.
  - vm_compute. reflexivity.
  - vm_compute. reflexivity.
  - vm_compute. reflexivity.
  - vm_compute. reflexivity.
  - vm_compute. reflexivity.
  - reflexivity.
  - reflexivity.
  - reflexivity.
  - reflexivity.
Defined.

(** A greeting is a value: status 200 and its envelope. *)
Lemma value_result_200_witness :
  sent (written (handle services (request "HelloWorldService.sayHello" [JStr "World"]) []).2) =
  Some (JNum 200,
        obj [("jsonrpc", JStr "2.0"); ("result", JStr "Hello, World"); ("id", JNull)]).
Proof.
  apply (value_result_200 services (new HelloWorldService) _
           "HelloWorldService.sayHello" "HelloWorldService" "sayHello" []
           sayHello [JStr "World"] (Returns (JStr "Hello, World")) _ [] []).
  - vm_compute. reflexivity.
  - vm_compute. reflexivity.
  - vm_compute. reflexivity.
  - vm_compute. reflexivity.
  - vm_compute. reflexivity.
  - vm_compute. reflexivity.
  - reflexivity.
  - reflexivity.
  - reflexivity.
  - reflexivity.
Defined.

(** The [id] of a request. *)
Lemma other_fields_ignored_witness :
  handle services
    (JObj (<["id" := JNum 7]>
       (list_to_map [("jsonrpc", JStr "2.0");
                     ("method", JStr "HelloWorldService.sayHello");
                     ("params", JArr [JStr "World"])]))) [] =
  handle services (request "HelloWorldService.sayHello" [JStr "World"]) [].
Proof.
  apply (other_fields_ignored services).
  apply (bool_decide_unpack _). vm_compute. exact I.
Defined.

(** An absent body. *)
Lemma escape_is_early_TypeError_witness :
  (∃ msg, TypeError "Cannot read properties of undefined (reading 'method')" =
          TypeError msg) ∧
  (handle services JUndefined [JStr "apple"]).2 = State [] [] [JStr "apple"].
Proof.
  apply (escape_is_early_TypeError services JUndefined [JStr "apple"]).
  vm_compute. reflexivity.
Defined.

(** The older catalogue class is replaced by the newer one. *)
Lemma shadowed_class_unreachable_witness :
  handle [HelloWorldService; LegacyProductService; ShoppingCartService; ProductService]
    (request "ProductService.count" []) [] =
  handle [HelloWorldService; ShoppingCartService; ProductService]
    (request "ProductService.count" []) [].
Proof.
  apply (shadowed_class_unreachable [HelloWorldService] [ShoppingCartService; ProductService]
           LegacyProductService).
  apply (bool_decide_unpack _). vm_compute. exact I.
Defined.

(** Registering the catalogue does not change the greeting. *)
Lemma other_classes_irrelevant_witness :
  handle services (request "HelloWorldService.sayHello" [JStr "World"]) [] =
  handle catalogue (request "HelloWorldService.sayHello" [JStr "World"]) [].
Proof.
  apply (other_classes_irrelevant services catalogue).
  intros s Hs. vm_compute in Hs. injection Hs as <-.
  vm_compute. reflexivity.
Defined.

End MoreScenarios.
